(** * The login page of kaili-ui: form state, submit validation and helper messages

    A shallow embedding of [src/pages/Login/LoginPage.tsx].  The React
    component [LoginPage] keeps a [LoginState], receives [LoginProps] from
    the store and reads the static [authenticationConfig].  Its methods are
    translated one by one: the constructor, [componentDidMount],
    [handleUsernameChange], [handlePasswordChange], [handleSubmit],
    [renderMessage], [getHelperMessage] and the part of [render] that
    decides what the form is given.

    Calls that leave the component (the two thunk props, the DOM, the
    browser location, the event object) are recorded in a log, in the order
    the code makes them.  [this.setState] is modelled with React's update
    queue, in both of the ways React 16 runs it. *)

From Stdlib Require Import String List Bool Arith Lia.
Import ListNotations.
Open Scope string_scope.
Open Scope list_scope.

(** ** JavaScript values the component tests for truthiness *)

(** [!!s] for a string: only the empty string is falsy. *)
Definition truthy (s : string) : bool :=
  match s with
  | EmptyString => false
  | String _ _ => true
  end.

(** [!!v] for a [string | undefined]. *)
Definition truthyOpt (v : option string) : bool :=
  match v with
  | Some s => truthy s
  | None => false
  end.

(** [v !== ''] for a [string | undefined]: [undefined] differs from ['']. *)
Definition notEmptyLiteral (v : option string) : bool :=
  match v with
  | Some s => truthy s
  | None => true
  end.

(** A prop that holds a function.  [LoginProps] declares both thunks as
    required, yet [handleSubmit] tests [this.props.authenticate] before the
    call, so the value may be [undefined] at run time. *)
Inductive Callback : Type :=
  | Supplied
  | Undefined.

Definition callable (f : Callback) : bool :=
  match f with
  | Supplied => true
  | Undefined => false
  end.

(** ** Types imported by the page *)

(** Modelled from the spec: the enumeration [LoginStatus] of
    [store/Store], whose declaration is not part of the sources at hand.
    The spec lists idle, logging, expired, error "and so on"; the page only
    compares a status with [logging], [expired] and [error], so every other
    member is kept apart by a tag. *)
Inductive LoginStatus : Type :=
  | idle
  | logging
  | expired
  | error
  | otherStatus (tag : nat).

Definition LoginStatus_eqb (a b : LoginStatus) : bool :=
  match a, b with
  | idle, idle => true
  | logging, logging => true
  | expired, expired => true
  | error, error => true
  | otherStatus m, otherStatus n => Nat.eqb m n
  | _, _ => false
  end.

(** Modelled from the spec: the enumeration [AuthStrategy] of
    [types/Auth], not part of the sources at hand: the local credential
    form and the delegated OpenShift login. *)
Inductive AuthStrategy : Type :=
  | login
  | openshift.

Definition AuthStrategy_eqb (a b : AuthStrategy) : bool :=
  match a, b with
  | login, login => true
  | openshift, openshift => true
  | _, _ => false
  end.

(** [authenticationConfig] of [config]: static, read by the page only. *)
Record AuthenticationConfig : Type := {
  strategy : AuthStrategy;
  authorizationEndpoint : option string;
  secretMissing : bool
}.

(** [LoginProps].  [session] and [error] are never read by the page and
    are left out; [checkCredentials] is called without a test, as its type
    allows. *)
Record LoginProps : Type := {
  status : LoginStatus;
  message : option string;
  authenticate : Callback;
  isPostLoginPerforming : bool;
  postLoginErrorMsg : option string
}.

(** [LoginState]. *)
Record LoginState : Type := {
  username : string;
  password : string;
  isValidUsername : bool;
  isValidPassword : bool;
  filledInputs : bool;
  showHelperText : bool;
  errorInput : option string
}.

(** The state the constructor installs. *)
Definition constructor : LoginState := {|
  username := "";
  password := "";
  isValidUsername := true;
  isValidPassword := true;
  filledInputs := false;
  showHelperText := false;
  errorInput := Some ""
|}.

(** ** setState *)

(** One [key: value] entry of the object given to [this.setState]. *)
Inductive FieldUpdate : Type :=
  | SetUsername (v : string)
  | SetPassword (v : string)
  | SetIsValidUsername (v : bool)
  | SetIsValidPassword (v : bool)
  | SetFilledInputs (v : bool)
  | SetShowHelperText (v : bool)
  | SetErrorInput (v : string).

(** The object given to [this.setState]: a partial state. *)
Definition Patch : Type := list FieldUpdate.

Definition applyField (s : LoginState) (u : FieldUpdate) : LoginState :=
  match u with
  | SetUsername v =>
      {| username := v; password := password s;
         isValidUsername := isValidUsername s; isValidPassword := isValidPassword s;
         filledInputs := filledInputs s; showHelperText := showHelperText s;
         errorInput := errorInput s |}
  | SetPassword v =>
      {| username := username s; password := v;
         isValidUsername := isValidUsername s; isValidPassword := isValidPassword s;
         filledInputs := filledInputs s; showHelperText := showHelperText s;
         errorInput := errorInput s |}
  | SetIsValidUsername v =>
      {| username := username s; password := password s;
         isValidUsername := v; isValidPassword := isValidPassword s;
         filledInputs := filledInputs s; showHelperText := showHelperText s;
         errorInput := errorInput s |}
  | SetIsValidPassword v =>
      {| username := username s; password := password s;
         isValidUsername := isValidUsername s; isValidPassword := v;
         filledInputs := filledInputs s; showHelperText := showHelperText s;
         errorInput := errorInput s |}
  | SetFilledInputs v =>
      {| username := username s; password := password s;
         isValidUsername := isValidUsername s; isValidPassword := isValidPassword s;
         filledInputs := v; showHelperText := showHelperText s;
         errorInput := errorInput s |}
  | SetShowHelperText v =>
      {| username := username s; password := password s;
         isValidUsername := isValidUsername s; isValidPassword := isValidPassword s;
         filledInputs := filledInputs s; showHelperText := v;
         errorInput := errorInput s |}
  | SetErrorInput v =>
      {| username := username s; password := password s;
         isValidUsername := isValidUsername s; isValidPassword := isValidPassword s;
         filledInputs := filledInputs s; showHelperText := showHelperText s;
         errorInput := Some v |}
  end.

(** Merging a partial state into the state, entry by entry. *)
Definition applyPatch (s : LoginState) (p : Patch) : LoginState :=
  fold_left applyField p s.

(** ** What a handler can reach *)

(** A call that leaves the component. *)
Inductive Call : Type :=
  | PreventDefault
  | CheckCredentials
  | Authenticate (username password : string)
  | Navigate (href : option string)
  | Focus (id : string).

(** How React runs [setState]: inside one of its own event handlers the
    updates are queued and merged when the handler returns, and
    [this.state] keeps its old value meanwhile; a handler called from
    anywhere else (a test calling the method on the instance) has each
    update applied at once. *)
Inductive UpdateMode : Type :=
  | Batched
  | Immediate.

Record World : Type := {
  mode : UpdateMode;
  this_state : LoginState;
  queue : list Patch;
  log : list Call
}.

Inductive JsError : Type :=
  | TypeError (what : string).

Inductive Outcome (A : Type) : Type :=
  | Returned (a : A) (w : World)
  | Thrown (e : JsError) (w : World).
Arguments Returned {A} a w.
Arguments Thrown {A} e w.

Definition Handler (A : Type) : Type := World -> Outcome A.

Definition ret {A : Type} (a : A) : Handler A := fun w => Returned a w.

Definition bind {A B : Type} (m : Handler A) (k : A -> Handler B) : Handler B :=
  fun w =>
    match m w with
    | Returned a w' => k a w'
    | Thrown e w' => Thrown e w'
    end.

Declare Scope handler_scope.
Delimit Scope handler_scope with handler.
Notation "x <- m ;; k" := (bind m (fun x => k))
  (at level 61, m at next level, right associativity) : handler_scope.
Notation "m ;; k" := (bind m (fun _ => k))
  (at level 61, right associativity) : handler_scope.
Open Scope handler_scope.

(** Reading [this.state]. *)
Definition thisState : Handler LoginState :=
  fun w => Returned (this_state w) w.

(** [this.setState(patch)]. *)
Definition setState (p : Patch) : Handler unit :=
  fun w =>
    match mode w with
    | Batched =>
        Returned tt {| mode := mode w; this_state := this_state w;
                       queue := queue w ++ [p]; log := log w |}
    | Immediate =>
        Returned tt {| mode := mode w; this_state := applyPatch (this_state w) p;
                       queue := queue w; log := log w |}
    end.

(** Recording a call that leaves the component. *)
Definition call (c : Call) : Handler unit :=
  fun w =>
    Returned tt {| mode := mode w; this_state := this_state w;
                   queue := queue w; log := log w ++ [c] |}.

(** Calling a prop: [undefined(...)] throws a TypeError. *)
Definition invoke (f : Callback) (c : Call) : Handler unit :=
  match f with
  | Supplied => call c
  | Undefined => fun w => Thrown (TypeError "not a function") w
  end.

(** The state once React has merged the queued updates. *)
Definition commit (w : World) : LoginState :=
  fold_left applyPatch (queue w) (this_state w).

Definition enter (m : UpdateMode) (s : LoginState) : World :=
  {| mode := m; this_state := s; queue := []; log := [] |}.

Definition worldOf {A : Type} (o : Outcome A) : World :=
  match o with
  | Returned _ w => w
  | Thrown _ w => w
  end.

Definition threw {A : Type} (o : Outcome A) : bool :=
  match o with
  | Returned _ _ => false
  | Thrown _ _ => true
  end.

(** ** The methods of [LoginPage] *)

(** The ids of the elements in the document, for
    [document.getElementById]. *)
Definition Document : Type := list string.

Definition getElementById (doc : Document) (id : string) : option string :=
  if existsb (String.eqb id) doc then Some id else None.

Definition componentDidMount (doc : Document) : Handler unit :=
  call CheckCredentials ;;
  let loginInput := getElementById doc "pf-login-username-id" in
  match loginInput with
  | Some el => call (Focus el)
  | None => ret tt
  end.

Definition handleUsernameChange (value : string) : Handler unit :=
  setState [SetUsername value].

Definition handlePasswordChange (passwordValue : string) : Handler unit :=
  setState [SetPassword passwordValue].

Definition handleSubmit (cfg : AuthenticationConfig) (props : LoginProps) : Handler unit :=
  call PreventDefault ;;
  if AuthStrategy_eqb (strategy cfg) openshift then
    call (Navigate (authorizationEndpoint cfg))
  else
    s <- thisState ;;
    setState [SetIsValidUsername (truthy (username s));
              SetIsValidPassword (truthy (password s));
              SetFilledInputs (truthy (username s) && truthy (password s))] ;;
    s <- thisState ;;
    if truthy (username s) && truthy (password s) && callable (authenticate props) then
      invoke (authenticate props) (Authenticate (username s) (password s)) ;;
      setState [SetShowHelperText false; SetErrorInput ""]
    else
      let message := "无效的登录凭证。" in
      let message :=
        (message ++
         (if negb (truthy (username s)) && negb (truthy (password s))
          then "用户名和密码为必填项。"
          else if truthy (username s)
               then "密码是必填项。"
               else "用户名是必填项。"))%string in
      setState [SetShowHelperText true;
                SetErrorInput message;
                SetIsValidUsername false;
                SetIsValidPassword false].

(** ** Rendering *)

Inductive Icon : Type :=
  | ExclamationCircleIcon
  | ExclamationTriangleIcon.

(** A child of the helper text: a string, [undefined], or the [span]
    built by [renderMessage] (its [key], the [color] of its style, its icon
    and the message it shows; the two constant style entries are left
    out). *)
Inductive Node : Type :=
  | Text (s : string)
  | UndefinedNode
  | Span (key : string) (color : string) (icon : Icon) (message : string).

(** A [string | undefined] pushed as it is. *)
Definition ofValue (v : option string) : Node :=
  match v with
  | Some s => Text s
  | None => UndefinedNode
  end.

Definition renderMessage (props : LoginProps) (st : LoginState)
    (message : option string) (type : option string) : Node :=
  match message with
  | None => Text ""
  | Some text =>
      if negb (truthy text) then Text ""
      else
        let variant :=
          match type with
          | Some t =>
              if truthy t then t
              else if LoginStatus_eqb (status props) error || filledInputs st
                   then "danger" else "warning"
          | None =>
              if LoginStatus_eqb (status props) error || filledInputs st
              then "danger" else "warning"
          end in
        let icon :=
          if String.eqb variant "danger"
          then ExclamationCircleIcon else ExclamationTriangleIcon in
        Span text (if String.eqb variant "danger" then "#c00" else "#f0ab00") icon text
  end.

(** The two fixed warnings of [getHelperMessage]. *)
Definition secretMissingWarning : string :=
  "Kiali的密码丢失。在管理员创建有效的密码之前，禁止用户访问Kiali。相关更多详细信息，请参阅Kiali文档。".

Definition sessionExpiredWarning : string :=
  "您的登录状态已过期或已在另一窗口中终止。".

(** [Array.prototype.push]. *)
Definition push {A : Type} (arr : list A) (x : A) : list A := arr ++ [x].

Definition getHelperMessage (cfg : AuthenticationConfig) (props : LoginProps)
    (st : LoginState) : list Node :=
  let messages := [] in
  let messages :=
    if showHelperText st
    then push messages (renderMessage props st (errorInput st) None)
    else messages in
  let messages :=
    if secretMissing cfg
    then push messages (renderMessage props st (Some secretMissingWarning) (Some "danger"))
    else messages in
  let messages :=
    if LoginStatus_eqb (status props) expired
    then push messages (renderMessage props st (Some sessionExpiredWarning) (Some "warning"))
    else messages in
  let messages :=
    if negb (secretMissing cfg) && LoginStatus_eqb (status props) error
    then push messages (ofValue (message props))
    else messages in
  let messages :=
    if truthyOpt (postLoginErrorMsg props)
    then push messages (renderMessage props st (postLoginErrorMsg props) None)
    else messages in
  messages.

(** What [render] hands to the PatternFly login form.
    [isLoginButtonDisabled] is given [isLoggingIn || postLoginErrorMsg]; the
    form reads it as a boolean, so its truthiness is kept. *)
Record LoginFormProps : Type := {
  form_showHelperText : bool;
  form_helperText : list Node;
  form_usernameValue : string;
  form_isValidUsername : bool;
  form_passwordValue : string;
  form_isValidPassword : bool;
  form_loginButtonLabel : option string;
  form_isLoginButtonDisabled : bool
}.

(** The child of the page: the form, or the single button. *)
Inductive View : Type :=
  | FormView (form : LoginFormProps)
  | ButtonView (label : string).

Definition render (cfg : AuthenticationConfig) (props : LoginProps)
    (st : LoginState) : View :=
  let loginLabel := "登录" in
  let loginLabel :=
    if AuthStrategy_eqb (strategy cfg) openshift then "以OpenShift登录" else loginLabel in
  let messages := getHelperMessage cfg props st in
  let isLoggingIn :=
    isPostLoginPerforming props || LoginStatus_eqb (status props) logging in
  let loginForm := {|
    form_showHelperText :=
      showHelperText st || notEmptyLiteral (message props) || Nat.ltb 0 (List.length messages);
    form_helperText := messages;
    form_usernameValue := username st;
    form_isValidUsername :=
      isValidUsername st && negb (LoginStatus_eqb (status props) error);
    form_passwordValue := password st;
    form_isValidPassword :=
      isValidPassword st && negb (LoginStatus_eqb (status props) error);
    form_loginButtonLabel := if isLoggingIn then Some "正在登录..." else None;
    form_isLoginButtonDisabled := isLoggingIn || truthyOpt (postLoginErrorMsg props)
  |} in
  if AuthStrategy_eqb (strategy cfg) login
  then FormView loginForm
  else ButtonView loginLabel.

(** ** Events *)

(** What the user can do to the page. *)
Inductive Event : Type :=
  | ChangeUsername (value : string)
  | ChangePassword (value : string)
  | Submit.

(** The form wires the three handlers; the button wires [handleSubmit]
    only. *)
Definition offers (v : View) (ev : Event) : bool :=
  match v, ev with
  | FormView _, _ => true
  | ButtonView _, Submit => true
  | ButtonView _, _ => false
  end.

Definition handlerOf (cfg : AuthenticationConfig) (props : LoginProps)
    (ev : Event) : Handler unit :=
  match ev with
  | ChangeUsername value => handleUsernameChange value
  | ChangePassword value => handlePasswordChange value
  | Submit => handleSubmit cfg props
  end.

(** Running the handler of an event on a state. *)
Definition fire (m : UpdateMode) (cfg : AuthenticationConfig) (props : LoginProps)
    (ev : Event) (st : LoginState) : Outcome unit :=
  handlerOf cfg props ev (enter m st).

(** The state once the event is handled and the updates are merged. *)
Definition after (m : UpdateMode) (cfg : AuthenticationConfig) (props : LoginProps)
    (ev : Event) (st : LoginState) : LoginState :=
  commit (worldOf (fire m cfg props ev st)).

(** The submit transition. *)
Definition submit (m : UpdateMode) (cfg : AuthenticationConfig) (props : LoginProps)
    (st : LoginState) : LoginState :=
  after m cfg props Submit st.

(** The state after [componentDidMount]. *)
Definition mount (m : UpdateMode) (doc : Document) (st : LoginState) : LoginState :=
  commit (worldOf (componentDidMount doc (enter m st))).

(** One interaction: the props of the moment (the store changes them
    between events), the way the handler is run, and the event. *)
Record Interaction : Type := {
  how : UpdateMode;
  given : LoginProps;
  event : Event
}.

Fixpoint run (cfg : AuthenticationConfig) (steps : list Interaction)
    (st : LoginState) : LoginState :=
  match steps with
  | [] => st
  | x :: rest => run cfg rest (after (how x) cfg (given x) (event x) st)
  end.

(** The life of a page: constructed, mounted, then the interactions. *)
Definition session (cfg : AuthenticationConfig) (doc : Document)
    (steps : list Interaction) : LoginState :=
  run cfg steps (mount Batched doc constructor).

(** Every event of the run is one the rendered page offers at that
    moment. *)
Fixpoint offered (cfg : AuthenticationConfig) (steps : list Interaction)
    (st : LoginState) : bool :=
  match steps with
  | [] => true
  | x :: rest =>
      offers (render cfg (given x) st) (event x)
      && offered cfg rest (after (how x) cfg (given x) (event x) st)
  end.

(** The username and password the state held when the last submit of the
    run was handled; [seen] is the answer for the events before the run. *)
Fixpoint lastSubmit (cfg : AuthenticationConfig) (steps : list Interaction)
    (st : LoginState) (seen : option (string * string)) : option (string * string) :=
  match steps with
  | [] => seen
  | x :: rest =>
      lastSubmit cfg rest (after (how x) cfg (given x) (event x) st)
        (match event x with
         | Submit => Some (username st, password st)
         | _ => seen
         end)
  end.

(** The arguments of the calls to [authenticate], in order. *)
Fixpoint authenticateCalls (l : list Call) : list (string * string) :=
  match l with
  | [] => []
  | Authenticate u p :: rest => (u, p) :: authenticateCalls rest
  | _ :: rest => authenticateCalls rest
  end.

(** How many times [checkCredentials] was called. *)
Fixpoint checkCredentialsCalls (l : list Call) : nat :=
  match l with
  | [] => 0
  | CheckCredentials :: rest => S (checkCredentialsCalls rest)
  | _ :: rest => checkCredentialsCalls rest
  end.

(** A child that shows something. *)
Definition displays (n : Node) : bool :=
  match n with
  | Text s => truthy s
  | UndefinedNode => false
  | Span _ _ _ _ => true
  end.

(** ** The message list as the specification words it *)

(** The five messages with their conditions, in the order of the
    specification. *)
Definition helperMessageTable (cfg : AuthenticationConfig) (props : LoginProps)
    (st : LoginState) : list (bool * Node) :=
  [ (showHelperText st,
     renderMessage props st (errorInput st) None);
    (secretMissing cfg,
     renderMessage props st (Some secretMissingWarning) (Some "danger"));
    (LoginStatus_eqb (status props) expired,
     renderMessage props st (Some sessionExpiredWarning) (Some "warning"));
    (LoginStatus_eqb (status props) error && negb (secretMissing cfg),
     ofValue (message props));
    (truthyOpt (postLoginErrorMsg props),
     renderMessage props st (postLoginErrorMsg props) None) ].

(** The messages whose condition holds, in the order of the table. *)
Definition composedMessages (cfg : AuthenticationConfig) (props : LoginProps)
    (st : LoginState) : list Node :=
  map snd (filter fst (helperMessageTable cfg props st)).

(** ** The invariants of the runs *)

(** What [filledInputs] should say for a remembered submit. *)
Definition bothFilled (seen : option (string * string)) : bool :=
  match seen with
  | None => false
  | Some (u, p) => truthy u && truthy p
  end.

(** What the runs keep true about [filledInputs]: it answers for the
    remembered submit, and while the form is not shown the inputs are
    still empty. *)
Definition filledInputsInv (cfg : AuthenticationConfig) (st : LoginState)
    (seen : option (string * string)) : Prop :=
  filledInputs st = bothFilled seen /\
  (strategy cfg = openshift ->
   username st = "" /\ password st = "" /\ filledInputs st = false).

(** ** Sample configurations, props and states *)

Definition loginConfig : AuthenticationConfig :=
  {| strategy := login; authorizationEndpoint := None; secretMissing := false |}.

Definition openshiftConfig : AuthenticationConfig :=
  {| strategy := openshift;
     authorizationEndpoint := Some "https://oauth.example/authorize";
     secretMissing := false |}.

Definition noSecretConfig : AuthenticationConfig :=
  {| strategy := login; authorizationEndpoint := None; secretMissing := true |}.

Definition idleProps : LoginProps :=
  {| status := idle; message := Some ""; authenticate := Supplied;
     isPostLoginPerforming := false; postLoginErrorMsg := None |}.

Definition expiredProps : LoginProps :=
  {| status := expired; message := Some ""; authenticate := Supplied;
     isPostLoginPerforming := false; postLoginErrorMsg := None |}.

Definition errorProps : LoginProps :=
  {| status := error; message := Some "denied"; authenticate := Supplied;
     isPostLoginPerforming := false; postLoginErrorMsg := None |}.

Definition unwiredProps : LoginProps :=
  {| status := idle; message := None; authenticate := Undefined;
     isPostLoginPerforming := false; postLoginErrorMsg := None |}.

(** The constructed state with the inputs typed in. *)
Definition typed (u p : string) : LoginState :=
  applyPatch constructor [SetUsername u; SetPassword p].

Definition loginPageDocument : Document := ["pf-login-username-id"].

(** Typing both inputs, then pressing the button. *)
Definition typeAndSubmit (u p : string) : list Interaction :=
  [ {| how := Batched; given := idleProps; event := ChangeUsername u |};
    {| how := Batched; given := idleProps; event := ChangePassword p |};
    {| how := Batched; given := idleProps; event := Submit |} ].

(** ** The calls of a run *)

(** The calls of a run, event after event. *)
Fixpoint runLog (cfg : AuthenticationConfig) (steps : list Interaction)
    (st : LoginState) : list Call :=
  match steps with
  | [] => []
  | x :: rest =>
      log (worldOf (fire (how x) cfg (given x) (event x) st))
      ++ runLog cfg rest (after (how x) cfg (given x) (event x) st)
  end.

(** The submits of a run that find the credential form, both inputs
    filled and [authenticate] supplied, each with the username and password
    of that moment. *)
Fixpoint authenticatedSubmits (cfg : AuthenticationConfig) (steps : list Interaction)
    (st : LoginState) : list (string * string) :=
  match steps with
  | [] => []
  | x :: rest =>
      (match event x with
       | Submit =>
           if AuthStrategy_eqb (strategy cfg) login
              && truthy (username st) && truthy (password st)
              && callable (authenticate (given x))
           then [(username st, password st)]
           else []
       | _ => []
       end)
      ++ authenticatedSubmits cfg rest (after (how x) cfg (given x) (event x) st)
  end.

(** A run of input changes only. *)
Fixpoint changesOnly (steps : list Interaction) : bool :=
  match steps with
  | [] => true
  | x :: rest =>
      match event x with
      | Submit => false
      | _ => changesOnly rest
      end
  end.

(** The last username typed in a run, [current] when none was. *)
Fixpoint lastUsername (steps : list Interaction) (current : string) : string :=
  match steps with
  | [] => current
  | x :: rest =>
      lastUsername rest
        (match event x with
         | ChangeUsername v => v
         | _ => current
         end)
  end.

(** The last password typed in a run, [current] when none was. *)
Fixpoint lastPassword (steps : list Interaction) (current : string) : string :=
  match steps with
  | [] => current
  | x :: rest =>
      lastPassword rest
        (match event x with
         | ChangePassword v => v
         | _ => current
         end)
  end.

(** The two looks of a span built by [renderMessage]. *)
Definition dangerSpan (text : string) : Node :=
  Span text "#c00" ExclamationCircleIcon text.

Definition warningSpan (text : string) : Node :=
  Span text "#f0ab00" ExclamationTriangleIcon text.

(** ** The connected container *)

(** Modelled from the spec: the authentication slice of [KialiAppState]
    ([store/Store], not part of the sources at hand), of which the page
    reads the status and the message. *)
Record AuthenticationSlice : Type := {
  slice_status : LoginStatus;
  slice_message : option string
}.

Record KialiAppState : Type := {
  authentication : AuthenticationSlice
}.

(** The thunks of [LoginThunkActions] (not part of the sources at hand),
    known by the creator that is called and its arguments. *)
Inductive KialiAppAction : Type :=
  | authenticateThunk (username password : string)
  | checkCredentialsThunk.

Record StateProps : Type := {
  sp_status : LoginStatus;
  sp_message : option string
}.

Definition mapStateToProps (state : KialiAppState) : StateProps :=
  {| sp_status := slice_status (authentication state);
     sp_message := slice_message (authentication state) |}.

(** The two function props; [R] is what [dispatch] returns. *)
Record DispatchProps (R : Type) : Type := {
  dp_authenticate : string -> string -> R;
  dp_checkCredentials : unit -> R
}.
Arguments dp_authenticate {R} _ _ _.
Arguments dp_checkCredentials {R} _ _.

Definition mapDispatchToProps {R : Type} (dispatch : KialiAppAction -> R) :
    DispatchProps R :=
  {| dp_authenticate := fun username password => dispatch (authenticateThunk username password);
     dp_checkCredentials := fun _ => dispatch checkCredentialsThunk |}.

(** The props the parent of the container writes itself. *)
Record OwnProps : Type := {
  own_isPostLoginPerforming : bool;
  own_postLoginErrorMsg : option string
}.

(** The props [connect] hands to [LoginPage]: the parent's, then those
    of [mapStateToProps], then those of [mapDispatchToProps], which always
    holds a function for [authenticate]. *)
Definition containerProps (own : OwnProps) (state : KialiAppState) : LoginProps :=
  {| status := sp_status (mapStateToProps state);
     message := sp_message (mapStateToProps state);
     authenticate := Supplied;
     isPostLoginPerforming := own_isPostLoginPerforming own;
     postLoginErrorMsg := own_postLoginErrorMsg own |}.

(** What the calls of the page to its two function props make of
    [dispatch], in order. *)
Fixpoint dispatched {R : Type} (dp : DispatchProps R) (l : list Call) : list R :=
  match l with
  | [] => []
  | Authenticate u p :: rest => dp_authenticate dp u p :: dispatched dp rest
  | CheckCredentials :: rest => dp_checkCredentials dp tt :: dispatched dp rest
  | _ :: rest => dispatched dp rest
  end.

(** ** MissingSidecar *)

(** [icons.istio.missingSidecar] of [config], not part of the sources at
    hand: taken as it is given. *)
Record IconConfig : Type := {
  icon_type : string;
  icon_name : string;
  icon_color : string
}.

(** The props a caller writes; [None] is a prop left out.  [style] is an
    object handed on untouched, [otherProps] the props the component does
    not name. *)
Record MissingSidecarProps : Type := {
  ms_style : option (list (string * string));
  ms_text : option string;
  ms_textTooltip : option string;
  ms_type : option string;
  ms_name : option string;
  ms_color : option string;
  ms_tooltip : option bool;
  ms_otherProps : list (string * string)
}.

(** The props the component function receives. *)
Record MissingSidecarResolved : Type := {
  r_style : option (list (string * string));
  r_text : string;
  r_textTooltip : string;
  r_type : string;
  r_name : string;
  r_color : string;
  r_tooltip : bool;
  r_otherProps : list (string * string)
}.

(** [MissingSidecar.defaultProps]. *)
Definition MissingSidecar_defaultProps (icons : IconConfig) : MissingSidecarResolved :=
  {| r_style := None;
     r_text := "丢失Sidecar";
     r_textTooltip := "丢失Sidecar";
     r_type := icon_type icons;
     r_name := icon_name icons;
     r_color := icon_color icons;
     r_tooltip := false;
     r_otherProps := [] |}.

Definition orDefault {A : Type} (v : option A) (d : A) : A :=
  match v with
  | Some x => x
  | None => d
  end.

(** React fills a prop from [defaultProps] when it is left out. *)
Definition resolveDefaults (d : MissingSidecarResolved) (p : MissingSidecarProps) :
    MissingSidecarResolved :=
  {| r_style := ms_style p;
     r_text := orDefault (ms_text p) (r_text d);
     r_textTooltip := orDefault (ms_textTooltip p) (r_textTooltip d);
     r_type := orDefault (ms_type p) (r_type d);
     r_name := orDefault (ms_name p) (r_name d);
     r_color := orDefault (ms_color p) (r_color d);
     r_tooltip := orDefault (ms_tooltip p) (r_tooltip d);
     r_otherProps := ms_otherProps p |}.

Record IconElement : Type := {
  el_type : string;
  el_name : string;
  el_color : string
}.

(** The outer span: its style, the spread props, the icon, and the
    label, [None] when the child is [false]. *)
Record IconSpan : Type := {
  span_style : option (list (string * string));
  span_otherProps : list (string * string);
  span_icon : IconElement;
  span_label : option string
}.

Inductive SidecarElement : Type :=
  | IconComponent (s : IconSpan)
  | OverlayTrigger (tooltipStrong : string) (placement : string)
      (trigger : list string) (rootClose : bool) (child : IconSpan).

Definition MissingSidecar (props : MissingSidecarResolved) : SidecarElement :=
  let iconComponent :=
    {| span_style := r_style props;
       span_otherProps := r_otherProps props;
       span_icon := {| el_type := r_type props; el_name := r_name props;
                       el_color := r_color props |};
       span_label := if negb (r_tooltip props) then Some (r_text props) else None |} in
  if r_tooltip props
  then OverlayTrigger (r_textTooltip props) "right" ["hover"; "focus"] false iconComponent
  else IconComponent iconComponent.

(** The element a use of the component gives. *)
Definition MissingSidecar_element (icons : IconConfig) (p : MissingSidecarProps) :
    SidecarElement :=
  MissingSidecar (resolveDefaults (MissingSidecar_defaultProps icons) p).

(** The outer span of the element, the label beside the icon and the text
    of the tooltip, when there is one. *)
Definition spanOf (e : SidecarElement) : IconSpan :=
  match e with
  | IconComponent s => s
  | OverlayTrigger _ _ _ _ s => s
  end.

Definition labelOf (e : SidecarElement) : option string := span_label (spanOf e).

Definition tooltipOf (e : SidecarElement) : option string :=
  match e with
  | IconComponent _ => None
  | OverlayTrigger t _ _ _ _ => Some t
  end.

(** ** OverviewCardLinks *)

(** [Paths] of [config], not part of the sources at hand: the four path
    segments the card uses, taken as they are given. *)
Record PathsConfig : Type := {
  APPLICATIONS : string;
  ISTIO : string;
  SERVICES : string;
  WORKLOADS : string
}.

(** One overlay trigger of the card: its key, the id and text of its
    tooltip, the target of its link and the name of its icon. *)
Record CardLink : Type := {
  trigger_key : string;
  tooltip_id : string;
  tooltip_text : string;
  link_to : string;
  link_icon : string
}.

Definition OverviewCardLinks_render (Paths : PathsConfig) (name : string) :
    list CardLink :=
  [ {| trigger_key := "ot_graph"; tooltip_id := "tt_graph";
       tooltip_text := "前往图表页面";
       link_to := ("/graph/namespaces?namespaces=" ++ name)%string;
       link_icon := "topology" |};
    {| trigger_key := "ot_apps"; tooltip_id := "tt_apps";
       tooltip_text := "前往应用页面";
       link_to := (("/" ++ APPLICATIONS Paths ++ "?namespaces=") ++ name)%string;
       link_icon := "applications" |};
    {| trigger_key := "ot_workloads"; tooltip_id := "tt_workloads";
       tooltip_text := "前往工作流量页面";
       link_to := (("/" ++ WORKLOADS Paths ++ "?namespaces=") ++ name)%string;
       link_icon := "bundle" |};
    {| trigger_key := "ot_services"; tooltip_id := "tt_services";
       tooltip_text := "前往服务页面";
       link_to := (("/" ++ SERVICES Paths ++ "?namespaces=") ++ name)%string;
       link_icon := "service" |};
    {| trigger_key := "ot_istio"; tooltip_id := "tt_istio";
       tooltip_text := "前往Istio配置页面";
       link_to := (("/" ++ ISTIO Paths ++ "?namespaces=") ++ name)%string;
       link_icon := "template" |} ].

(** ** More samples *)

Definition kialiPaths : PathsConfig :=
  {| APPLICATIONS := "applications"; ISTIO := "istio";
     SERVICES := "services"; WORKLOADS := "workloads" |}.

Definition loggingStore : KialiAppState :=
  {| authentication := {| slice_status := logging; slice_message := Some "" |} |}.

Definition bareOwnProps : OwnProps :=
  {| own_isPostLoginPerforming := false; own_postLoginErrorMsg := None |}.

(** Typing a username, correcting it, then typing a password. *)
Definition typingOnly : list Interaction :=
  [ {| how := Batched; given := idleProps; event := ChangeUsername "admni" |};
    {| how := Immediate; given := errorProps; event := ChangeUsername "admin" |};
    {| how := Batched; given := expiredProps; event := ChangePassword "s3cret" |} ].

(** Pressing the button of the OpenShift page twice. *)
Definition clickTwice : list Interaction :=
  [ {| how := Batched; given := idleProps; event := Submit |};
    {| how := Batched; given := expiredProps; event := Submit |} ].

(** * Properties *)

(** ** Helper lemmas and tactics *)

Lemma truthy_false_iff (s : string) : truthy s = false <-> s = "".
Proof.
  destruct s; simpl; split; intro H; try reflexivity; discriminate H.
Qed.

Lemma truthy_append_l (a b : string) : truthy a = true -> truthy (a ++ b) = true.
Proof.
  destruct a; simpl; intro H; [discriminate H | reflexivity].
Qed.

Lemma LoginStatus_eqb_eq (a b : LoginStatus) : LoginStatus_eqb a b = true <-> a = b.
Proof.
  destruct a, b; simpl; split; intro H;
    try reflexivity; try discriminate H.
  - apply Nat.eqb_eq in H. now subst.
  - injection H as ->. apply Nat.eqb_refl.
Qed.

Lemma in_push {A : Type} (l : list A) (x y : A) : In x l -> In x (push l y).
Proof.
  unfold push. intro H. apply in_or_app. now left.
Qed.

Lemma in_push_last {A : Type} (l : list A) (x : A) : In x (push l x).
Proof.
  unfold push. apply in_or_app. right. now left.
Qed.

(** Opens a state and the two strings [handleSubmit] tests. *)
Ltac open_state st :=
  let u := fresh "u" in
  let p := fresh "p" in
  destruct st as [u p ? ? ? ? ?]; destruct u, p; simpl in *.

Ltac open_config cfg :=
  let s := fresh "strat" in
  destruct cfg as [s ? ?]; simpl in *; try subst s.

(** The handlers of the three events return: the one call to a prop that
    may be [undefined] is guarded. *)
Lemma fire_returns (m : UpdateMode) (cfg : AuthenticationConfig) (props : LoginProps)
    (ev : Event) (st : LoginState) :
  threw (fire m cfg props ev st) = false.
Proof.
  destruct ev; destruct m; try reflexivity;
    destruct cfg as [[] ? ?]; destruct props as [? ? [] ? ?];
    open_state st; reflexivity.
Qed.

(** Mounting leaves the state as it was. *)
Lemma mount_state (m : UpdateMode) (doc : Document) (st : LoginState) :
  mount m doc st = st.
Proof.
  unfold mount, componentDidMount, bind, call, enter; simpl.
  destruct (getElementById doc "pf-login-username-id"); reflexivity.
Qed.

(** The state after a submit, field by field, under the credential
    form. *)
Lemma submit_login_state (m : UpdateMode) (cfg : AuthenticationConfig)
    (props : LoginProps) (st : LoginState) :
  strategy cfg = login ->
  after m cfg props Submit st =
    if truthy (username st) && truthy (password st) && callable (authenticate props)
    then {| username := username st; password := password st;
            isValidUsername := true; isValidPassword := true;
            filledInputs := true; showHelperText := false;
            errorInput := Some "" |}
    else {| username := username st; password := password st;
            isValidUsername := false; isValidPassword := false;
            filledInputs := truthy (username st) && truthy (password st);
            showHelperText := true;
            errorInput :=
              Some ("无效的登录凭证。" ++
                    (if negb (truthy (username st)) && negb (truthy (password st))
                     then "用户名和密码为必填项。"
                     else if truthy (username st)
                          then "密码是必填项。"
                          else "用户名是必填项。"))%string |}.
Proof.
  intro Hs. open_config cfg.
  destruct props as [? ? [] ? ?]; destruct m; open_state st; reflexivity.
Qed.

(** Under the OpenShift strategy a submit leaves the state as it was. *)
Lemma submit_openshift_state (m : UpdateMode) (cfg : AuthenticationConfig)
    (props : LoginProps) (st : LoginState) :
  strategy cfg = openshift ->
  after m cfg props Submit st = st.
Proof.
  intro Hs. open_config cfg. destruct m; reflexivity.
Qed.

(** A change of an input touches that input only. *)
Lemma change_username_state (m : UpdateMode) (cfg : AuthenticationConfig)
    (props : LoginProps) (v : string) (st : LoginState) :
  after m cfg props (ChangeUsername v) st = applyField st (SetUsername v).
Proof. destruct m; reflexivity. Qed.

Lemma change_password_state (m : UpdateMode) (cfg : AuthenticationConfig)
    (props : LoginProps) (v : string) (st : LoginState) :
  after m cfg props (ChangePassword v) st = applyField st (SetPassword v).
Proof. destruct m; reflexivity. Qed.

(** ** Message composition *)

(** A rejected submit seen with an expired session and a post-login
    error: three messages, the validation error first. *)
Example getHelperMessage_after_rejected_submit :
  getHelperMessage loginConfig
    {| status := expired; message := Some ""; authenticate := Supplied;
       isPostLoginPerforming := false; postLoginErrorMsg := Some "no namespaces" |}
    (submit Batched loginConfig idleProps constructor)
  = [ Span ("无效的登录凭证。" ++ "用户名和密码为必填项。")%string "#f0ab00"
        ExclamationTriangleIcon ("无效的登录凭证。" ++ "用户名和密码为必填项。")%string;
      Span sessionExpiredWarning "#f0ab00" ExclamationTriangleIcon sessionExpiredWarning;
      Span "no namespaces" "#f0ab00" ExclamationTriangleIcon "no namespaces" ].
Proof. reflexivity. Qed.

(** With the secret missing the status message of a failed login is not
    pushed; without it the message is pushed as it is, not as a span. *)
Example getHelperMessage_error_status :
  getHelperMessage noSecretConfig errorProps constructor
  = [ Span secretMissingWarning "#c00" ExclamationCircleIcon secretMissingWarning ]
  /\ getHelperMessage loginConfig errorProps constructor = [ Text "denied" ].
Proof. split; reflexivity. Qed.

(** A page freshly mounted, then both inputs typed and the form
    submitted. *)
Example session_type_and_submit :
  session loginConfig loginPageDocument (typeAndSubmit "admin" "s3cret")
  = {| username := "admin"; password := "s3cret";
       isValidUsername := true; isValidPassword := true;
       filledInputs := true; showHelperText := false; errorInput := Some "" |}.
Proof. reflexivity. Qed.

Example mount_log :
  log (worldOf (componentDidMount loginPageDocument (enter Batched constructor)))
  = [CheckCredentials; Focus "pf-login-username-id"]
  /\ log (worldOf (componentDidMount [] (enter Batched constructor)))
     = [CheckCredentials].
Proof. split; reflexivity. Qed.

(** C1: [getHelperMessage] collects, for every state, props and
    configuration, exactly the messages of the five-row table whose
    condition holds (validation error, missing secret, session expired,
    external status message, post-login error), in the order of the
    table. *)
Theorem getHelperMessage_fixed_order (cfg : AuthenticationConfig)
    (props : LoginProps) (st : LoginState) :
  getHelperMessage cfg props st = composedMessages cfg props st.
Proof.
  unfold getHelperMessage, composedMessages, helperMessageTable, push.
  destruct (showHelperText st), (secretMissing cfg),
    (LoginStatus_eqb (status props) expired),
    (LoginStatus_eqb (status props) error),
    (truthyOpt (postLoginErrorMsg props)); reflexivity.
Qed.

(** C7: when the configuration flags a missing secret, the fixed
    secret-missing warning (the danger span with that text) is in the
    composed list, whatever the state, the status and the other props. *)
Theorem secretMissing_warning_present (cfg : AuthenticationConfig)
    (props : LoginProps) (st : LoginState) :
  secretMissing cfg = true ->
  In (Span secretMissingWarning "#c00" ExclamationCircleIcon secretMissingWarning)
     (getHelperMessage cfg props st).
Proof.
  intro H. unfold getHelperMessage. rewrite H. cbn [negb andb].
  change (renderMessage props st (Some secretMissingWarning) (Some "danger"))
    with (Span secretMissingWarning "#c00" ExclamationCircleIcon secretMissingWarning).
  destruct (truthyOpt (postLoginErrorMsg props));
    destruct (LoginStatus_eqb (status props) expired);
    destruct (showHelperText st);
    cbv zeta; repeat first [apply in_push_last | apply in_push].
Qed.

Lemma secretMissing_warning_present_witness :
  In (Span secretMissingWarning "#c00" ExclamationCircleIcon secretMissingWarning)
     (getHelperMessage noSecretConfig errorProps constructor).
Proof.
  apply secretMissing_warning_present. reflexivity.
Defined.

(** ** Submit under the credential form *)

(** C2: with the credential form, a supplied [authenticate] and both
    inputs non-empty, a submit returns having called [authenticate] exactly
    once, with the username and password of the state, and the merged state
    has [showHelperText] false and [errorInput] cleared. *)
Theorem submit_filled_authenticates (m : UpdateMode) (cfg : AuthenticationConfig)
    (props : LoginProps) (st : LoginState) :
  strategy cfg = login ->
  authenticate props = Supplied ->
  truthy (username st) = true ->
  truthy (password st) = true ->
  let o := fire m cfg props Submit st in
  threw o = false /\
  log (worldOf o) = [PreventDefault; Authenticate (username st) (password st)] /\
  authenticateCalls (log (worldOf o)) = [(username st, password st)] /\
  showHelperText (submit m cfg props st) = false /\
  errorInput (submit m cfg props st) = Some "".
Proof.
  intros Hs Ha Hu Hp. open_config cfg.
  destruct props as [? ? a ? ?]; simpl in Ha; subst a.
  destruct m; open_state st; try discriminate;
    repeat split; reflexivity.
Qed.

Lemma submit_filled_authenticates_witness :
  authenticateCalls
    (log (worldOf (fire Batched loginConfig idleProps Submit (typed "admin" "s3cret"))))
  = [("admin", "s3cret")]
  /\ showHelperText (submit Batched loginConfig idleProps (typed "admin" "s3cret")) = false
  /\ errorInput (submit Batched loginConfig idleProps (typed "admin" "s3cret")) = Some "".
Proof.
  destruct (submit_filled_authenticates Batched loginConfig idleProps
              (typed "admin" "s3cret") eq_refl eq_refl eq_refl eq_refl)
    as (_ & _ & Hc & Hh & He).
  exact (conj Hc (conj Hh He)).
Defined.

(** C3: with the credential form and at least one input empty, a submit
    returns without calling [authenticate]; the merged state has both
    validity flags false, [showHelperText] true, and [errorInput] is the
    fixed prefix followed by the variant for the empty fields: both, the
    password only, the username only. *)
Theorem submit_missing_input_rejected (m : UpdateMode) (cfg : AuthenticationConfig)
    (props : LoginProps) (st : LoginState) :
  strategy cfg = login ->
  truthy (username st) && truthy (password st) = false ->
  let o := fire m cfg props Submit st in
  let st' := submit m cfg props st in
  threw o = false /\
  authenticateCalls (log (worldOf o)) = [] /\
  log (worldOf o) = [PreventDefault] /\
  isValidUsername st' = false /\
  isValidPassword st' = false /\
  showHelperText st' = true /\
  (username st = "" -> password st = "" ->
   errorInput st' = Some ("无效的登录凭证。" ++ "用户名和密码为必填项。")%string) /\
  (username st <> "" -> password st = "" ->
   errorInput st' = Some ("无效的登录凭证。" ++ "密码是必填项。")%string) /\
  (username st = "" -> password st <> "" ->
   errorInput st' = Some ("无效的登录凭证。" ++ "用户名是必填项。")%string).
Proof.
  intros Hs He. open_config cfg.
  destruct props as [? ? [] ? ?]; destruct m; open_state st;
    try discriminate He;
    repeat split; intros; try reflexivity; try congruence.
Qed.

Lemma submit_missing_input_rejected_witness :
  authenticateCalls
    (log (worldOf (fire Batched loginConfig idleProps Submit (typed "admin" "")))) = []
  /\ showHelperText (submit Batched loginConfig idleProps (typed "admin" "")) = true
  /\ errorInput (submit Batched loginConfig idleProps (typed "admin" ""))
     = Some ("无效的登录凭证。" ++ "密码是必填项。")%string.
Proof.
  destruct (submit_missing_input_rejected Batched loginConfig idleProps
              (typed "admin" "") eq_refl eq_refl)
    as (_ & Hc & _ & _ & _ & Hh & _ & Hp & _).
  refine (conj Hc (conj Hh (Hp _ eq_refl))).
  discriminate.
Defined.

(** C10: with the credential form, both inputs non-empty and the
    [authenticate] prop undefined, a submit returns without an error and
    without calling [authenticate]; it takes the validation-failure branch:
    [showHelperText] true, [errorInput] the invalid-credentials message
    (with the password variant, the username being non-empty), both
    validity flags false, while [filledInputs] is true. *)
Theorem submit_without_authenticate (m : UpdateMode) (cfg : AuthenticationConfig)
    (props : LoginProps) (st : LoginState) :
  strategy cfg = login ->
  authenticate props = Undefined ->
  truthy (username st) = true ->
  truthy (password st) = true ->
  let o := fire m cfg props Submit st in
  let st' := submit m cfg props st in
  threw o = false /\
  authenticateCalls (log (worldOf o)) = [] /\
  showHelperText st' = true /\
  errorInput st' = Some ("无效的登录凭证。" ++ "密码是必填项。")%string /\
  isValidUsername st' = false /\
  isValidPassword st' = false /\
  filledInputs st' = true.
Proof.
  intros Hs Ha Hu Hp. open_config cfg.
  destruct props as [? ? a ? ?]; simpl in Ha; subst a.
  destruct m; open_state st; try discriminate;
    repeat split; reflexivity.
Qed.

Lemma submit_without_authenticate_witness :
  threw (fire Immediate loginConfig unwiredProps Submit (typed "admin" "s3cret")) = false
  /\ showHelperText (submit Immediate loginConfig unwiredProps (typed "admin" "s3cret")) = true
  /\ filledInputs (submit Immediate loginConfig unwiredProps (typed "admin" "s3cret")) = true.
Proof.
  destruct (submit_without_authenticate Immediate loginConfig unwiredProps
              (typed "admin" "s3cret") eq_refl eq_refl eq_refl eq_refl)
    as (Ht & _ & Hh & _ & _ & _ & Hf).
  exact (conj Ht (conj Hh Hf)).
Defined.

(** C8: submitting with an empty input is idempotent.  From any state
    with at least one input empty, a second submit gives the same
    [errorInput] and the same validity flags as the first (indeed the same
    state): the message is overwritten, never extended. *)
Theorem submit_invalid_idempotent (m1 m2 : UpdateMode) (cfg : AuthenticationConfig)
    (props1 props2 : LoginProps) (st : LoginState) :
  truthy (username st) && truthy (password st) = false ->
  let once := submit m1 cfg props1 st in
  let twice := submit m2 cfg props2 once in
  errorInput twice = errorInput once /\
  isValidUsername twice = isValidUsername once /\
  isValidPassword twice = isValidPassword once /\
  twice = once.
Proof.
  intros He once twice.
  assert (Heq : twice = once).
  { unfold twice, once, submit.
    destruct (strategy cfg) eqn:Hs.
    - rewrite !(submit_login_state _ cfg _ _ Hs).
      rewrite He. cbn [andb username password]. rewrite He. reflexivity.
    - rewrite !(submit_openshift_state _ cfg _ _ Hs). reflexivity. }
  rewrite Heq. repeat split.
Qed.

Lemma submit_invalid_idempotent_witness :
  errorInput (submit Batched loginConfig errorProps
                (submit Batched loginConfig idleProps (typed "" "s3cret")))
  = errorInput (submit Batched loginConfig idleProps (typed "" "s3cret")).
Proof.
  exact (proj1 (submit_invalid_idempotent Batched Batched loginConfig
                  idleProps errorProps (typed "" "s3cret") eq_refl)).
Defined.

(** ** Submit under the OpenShift strategy *)

(** C4: under the OpenShift strategy a submit queues no state update and
    leaves every field of the state as it was, never calls [authenticate],
    and, once the default action of the event is prevented, does one thing:
    it sets the location to the configured authorization endpoint. *)
Theorem submit_openshift_only_navigates (m : UpdateMode) (cfg : AuthenticationConfig)
    (props : LoginProps) (st : LoginState) :
  strategy cfg = openshift ->
  let o := fire m cfg props Submit st in
  threw o = false /\
  this_state (worldOf o) = st /\
  queue (worldOf o) = [] /\
  submit m cfg props st = st /\
  authenticateCalls (log (worldOf o)) = [] /\
  log (worldOf o) = [PreventDefault; Navigate (authorizationEndpoint cfg)].
Proof.
  intro Hs. open_config cfg. destruct m; repeat split.
Qed.

Lemma submit_openshift_only_navigates_witness :
  submit Batched openshiftConfig idleProps constructor = constructor
  /\ log (worldOf (fire Batched openshiftConfig idleProps Submit constructor))
     = [PreventDefault; Navigate (Some "https://oauth.example/authorize")].
Proof.
  destruct (submit_openshift_only_navigates Batched openshiftConfig idleProps
              constructor eq_refl)
    as (_ & _ & _ & Hst & _ & Hl).
  exact (conj Hst Hl).
Defined.

(** ** Mount *)

(** C9: [componentDidMount] returns having called [checkCredentials]
    exactly once, first of all, whatever the state it starts from, and it
    queues no update: every field of the state is as before. *)
Theorem mount_checks_credentials_once (m : UpdateMode) (doc : Document)
    (st : LoginState) :
  let o := componentDidMount doc (enter m st) in
  threw o = false /\
  checkCredentialsCalls (log (worldOf o)) = 1 /\
  hd_error (log (worldOf o)) = Some CheckCredentials /\
  this_state (worldOf o) = st /\
  queue (worldOf o) = [] /\
  mount m doc st = st.
Proof.
  unfold mount, componentDidMount, bind, call, enter; simpl.
  destruct (getElementById doc "pf-login-username-id"); repeat split.
Qed.

(** ** Invariants of the form state *)

(** Every event keeps [showHelperText] equal to "the validation message
    is non-empty". *)
Lemma after_keeps_helper_flag (m : UpdateMode) (cfg : AuthenticationConfig)
    (props : LoginProps) (ev : Event) (st : LoginState) :
  showHelperText st = truthyOpt (errorInput st) ->
  showHelperText (after m cfg props ev st)
  = truthyOpt (errorInput (after m cfg props ev st)).
Proof.
  intro H. destruct ev.
  - rewrite change_username_state. exact H.
  - rewrite change_password_state. exact H.
  - destruct (strategy cfg) eqn:Hs.
    + rewrite (submit_login_state _ cfg _ _ Hs).
      destruct (truthy (username st) && truthy (password st)
                && callable (authenticate props)); reflexivity.
    + rewrite (submit_openshift_state _ cfg _ _ Hs). exact H.
Qed.

Lemma run_keeps_helper_flag (cfg : AuthenticationConfig) (steps : list Interaction) :
  forall st,
    showHelperText st = truthyOpt (errorInput st) ->
    showHelperText (run cfg steps st) = truthyOpt (errorInput (run cfg steps st)).
Proof.
  induction steps as [|x rest IH]; intros st H; simpl.
  - exact H.
  - apply IH. now apply after_keeps_helper_flag.
Qed.

Lemma session_helper_flag (cfg : AuthenticationConfig) (doc : Document)
    (steps : list Interaction) :
  showHelperText (session cfg doc steps)
  = truthyOpt (errorInput (session cfg doc steps)).
Proof.
  unfold session. apply run_keeps_helper_flag.
  rewrite mount_state. reflexivity.
Qed.

(** The button view offers no change of the inputs. *)
Lemma offers_change_needs_form (cfg : AuthenticationConfig) (props : LoginProps)
    (st : LoginState) (ev : Event) :
  offers (render cfg props st) ev = true ->
  ev = Submit \/ strategy cfg = login.
Proof.
  unfold render. destruct (strategy cfg); simpl.
  - intros _. now right.
  - destruct ev; intro H; try discriminate H. now left.
Qed.

(** Under the credential form a submit records whether both inputs were
    filled, on either branch. *)
Lemma submit_login_filledInputs (m : UpdateMode) (cfg : AuthenticationConfig)
    (props : LoginProps) (st : LoginState) :
  strategy cfg = login ->
  filledInputs (after m cfg props Submit st)
  = truthy (username st) && truthy (password st).
Proof.
  intro Hs. rewrite (submit_login_state _ cfg _ _ Hs).
  destruct (truthy (username st)), (truthy (password st)),
    (callable (authenticate props)); reflexivity.
Qed.

Lemma after_keeps_filledInputsInv (cfg : AuthenticationConfig) (x : Interaction)
    (st : LoginState) (seen : option (string * string)) :
  offers (render cfg (given x) st) (event x) = true ->
  filledInputsInv cfg st seen ->
  filledInputsInv cfg (after (how x) cfg (given x) (event x) st)
    (match event x with
     | Submit => Some (username st, password st)
     | _ => seen
     end).
Proof.
  intros Hoff [Hf Ho].
  destruct (offers_change_needs_form _ _ _ _ Hoff) as [Hev | Hs].
  - rewrite Hev. destruct (strategy cfg) eqn:Hs.
    + split.
      * now apply submit_login_filledInputs.
      * intro Hc. congruence.
    + rewrite (submit_openshift_state _ cfg _ _ Hs).
      destruct (Ho eq_refl) as (Hu & Hp & Hfi). split.
      * rewrite Hfi, Hu, Hp. reflexivity.
      * intros _. now repeat split.
  - assert (Hno : strategy cfg = openshift -> False) by (rewrite Hs; discriminate).
    destruct (event x).
    + rewrite change_username_state. split; [exact Hf | intro Hc; now destruct (Hno Hc)].
    + rewrite change_password_state. split; [exact Hf | intro Hc; now destruct (Hno Hc)].
    + split.
      * now apply submit_login_filledInputs.
      * intro Hc. now destruct (Hno Hc).
Qed.

Lemma run_keeps_filledInputsInv (cfg : AuthenticationConfig) (steps : list Interaction) :
  forall st seen,
    offered cfg steps st = true ->
    filledInputsInv cfg st seen ->
    filledInputsInv cfg (run cfg steps st) (lastSubmit cfg steps st seen).
Proof.
  induction steps as [|x rest IH]; intros st seen Hoff Hinv; simpl in *.
  - exact Hinv.
  - apply andb_true_iff in Hoff as [Hx Hrest].
    apply IH; [exact Hrest | now apply after_keeps_filledInputsInv].
Qed.

(** C6: in a session whose events are those the rendered page offers,
    [filledInputs] is true exactly when both the username and the password
    were non-empty when the last submit was handled; before any submit it
    is false. *)
Theorem filledInputs_reflects_last_submit (cfg : AuthenticationConfig)
    (doc : Document) (steps : list Interaction) :
  offered cfg steps (mount Batched doc constructor) = true ->
  filledInputs (session cfg doc steps)
  = bothFilled (lastSubmit cfg steps (mount Batched doc constructor) None).
Proof.
  intro Hoff. unfold session.
  apply (run_keeps_filledInputsInv cfg steps _ None Hoff).
  rewrite mount_state. split; [reflexivity | now repeat split].
Qed.

Lemma filledInputs_reflects_last_submit_witness :
  filledInputs (session loginConfig loginPageDocument (typeAndSubmit "admin" "s3cret"))
  = true.
Proof.
  exact (filledInputs_reflects_last_submit loginConfig loginPageDocument
           (typeAndSubmit "admin" "s3cret") eq_refl).
Defined.

(** C5, for the validation message: in every state a session reaches,
    [showHelperText] is true exactly when [errorInput] holds a non-empty
    validation message, and then that message is shown in the composed
    list.  The messages derived from the status and the configuration are
    composed whether the flag is set or not; for them [render] gives the
    form [showHelperText] whenever the composed list is non-empty. *)
Theorem showHelperText_iff_validation_message (cfg : AuthenticationConfig)
    (doc : Document) (steps : list Interaction) (props : LoginProps) :
  let st := session cfg doc steps in
  (showHelperText st = true <-> truthyOpt (errorInput st) = true) /\
  (showHelperText st = true ->
   existsb displays (getHelperMessage cfg props st) = true) /\
  (forall form, render cfg props st = FormView form ->
     form_helperText form <> [] -> form_showHelperText form = true).
Proof.
  intro st. pose proof (session_helper_flag cfg doc steps) as Hinv.
  fold st in Hinv. repeat split.
  - intro H. now rewrite <- Hinv.
  - intro H. now rewrite Hinv.
  - intro H. unfold getHelperMessage. rewrite H.
    assert (Hd : displays (renderMessage props st (errorInput st) None) = true).
    { rewrite Hinv in H. destruct (errorInput st) as [e|]; simpl in H; [|discriminate H].
      unfold renderMessage. rewrite H. reflexivity. }
    cbv zeta. unfold push.
    destruct (secretMissing cfg), (LoginStatus_eqb (status props) expired),
      (negb _ && _), (truthyOpt (postLoginErrorMsg props));
      cbn [app existsb]; rewrite Hd; reflexivity.
  - intros form Hr Hne. unfold render in Hr.
    destruct (AuthStrategy_eqb (strategy cfg) login); [|discriminate Hr].
    injection Hr as <-. cbn [form_showHelperText form_helperText] in *.
    destruct (getHelperMessage cfg props st) as [|n l]; [now destruct Hne|].
    cbn [List.length Nat.ltb Nat.leb]. now rewrite !orb_true_r.
Qed.

(** C5 does not reach the status-derived messages: in the freshly
    mounted page with an expired session the composed list shows the
    session-expired warning while [showHelperText] is false. *)
Lemma showHelperText_misses_status_message :
  ~ (showHelperText (session loginConfig loginPageDocument []) = true <->
     existsb displays
       (getHelperMessage loginConfig expiredProps
          (session loginConfig loginPageDocument [])) = true).
Proof.
  intros [_ H]. specialize (H eq_refl). discriminate H.
Qed.

(** * Further properties of the page *)

(** ** The calls of one event *)

(** The calls of a submit: the default action is prevented, then comes
    the one call of the branch taken, if it makes one. *)
Lemma submit_log (m : UpdateMode) (cfg : AuthenticationConfig) (props : LoginProps)
    (st : LoginState) :
  log (worldOf (fire m cfg props Submit st))
  = PreventDefault ::
    (if AuthStrategy_eqb (strategy cfg) openshift
     then [Navigate (authorizationEndpoint cfg)]
     else if truthy (username st) && truthy (password st)
             && callable (authenticate props)
          then [Authenticate (username st) (password st)]
          else []).
Proof.
  destruct cfg as [[] ? ?]; destruct props as [? ? [] ? ?]; destruct m;
    open_state st; reflexivity.
Qed.

Lemma change_log (m : UpdateMode) (cfg : AuthenticationConfig) (props : LoginProps)
    (ev : Event) (st : LoginState) :
  ev <> Submit -> log (worldOf (fire m cfg props ev st)) = [].
Proof.
  destruct ev; intro H; [destruct m; reflexivity | destruct m; reflexivity |].
  now destruct H.
Qed.

Lemma authenticateCalls_app (a b : list Call) :
  authenticateCalls (a ++ b) = authenticateCalls a ++ authenticateCalls b.
Proof.
  induction a as [|c a IH]; simpl; [reflexivity|].
  destruct c; simpl; rewrite IH; reflexivity.
Qed.

Lemma AuthStrategy_eqb_eq (a b : AuthStrategy) : AuthStrategy_eqb a b = true <-> a = b.
Proof.
  destruct a, b; simpl; split; intro H; try reflexivity; discriminate H.
Qed.

(** X1: the two ways React runs [setState] cannot be told apart on this
    page.  For every event, the merged state and the calls made are the
    same whether the updates are queued or applied at once: [handleSubmit]
    reads, after its first [setState], only the two inputs, which that
    update leaves alone. *)
Theorem batched_immediate_agree (cfg : AuthenticationConfig) (props : LoginProps)
    (ev : Event) (st : LoginState) :
  after Batched cfg props ev st = after Immediate cfg props ev st /\
  log (worldOf (fire Batched cfg props ev st))
  = log (worldOf (fire Immediate cfg props ev st)).
Proof.
  destruct ev; try (split; reflexivity).
  destruct cfg as [[] ? ?]; destruct props as [? ? [] ? ?];
    open_state st; split; reflexivity.
Qed.

(** X2: [authenticate] is never called with an empty username or
    password.  Whatever the event, the state, the props and the
    configuration, a call to [authenticate] in the log comes from a submit
    under the credential form with the prop supplied, carries the username
    and password of the state, both non-empty, and is the only one. *)
Theorem authenticate_only_with_credentials (m : UpdateMode)
    (cfg : AuthenticationConfig) (props : LoginProps) (ev : Event)
    (st : LoginState) (u p : string) :
  In (u, p) (authenticateCalls (log (worldOf (fire m cfg props ev st)))) ->
  ev = Submit /\ strategy cfg = login /\ authenticate props = Supplied /\
  u = username st /\ p = password st /\
  truthy u = true /\ truthy p = true /\
  authenticateCalls (log (worldOf (fire m cfg props ev st))) = [(u, p)].
Proof.
  destruct ev.
  - rewrite change_log by discriminate. intros [].
  - rewrite change_log by discriminate. intros [].
  - rewrite submit_log. cbn [authenticateCalls].
    destruct (strategy cfg) eqn:Hs; cbn [AuthStrategy_eqb authenticateCalls];
      [|intros []].
    destruct (truthy (username st)) eqn:Hu, (truthy (password st)) eqn:Hp,
      (authenticate props) eqn:Ha; cbn [andb callable authenticateCalls];
      try solve [intros []].
    intros [H | []]. injection H as <- <-. repeat split; assumption.
Qed.

Lemma authenticate_only_with_credentials_witness :
  truthy "admin" = true /\ truthy "s3cret" = true /\
  authenticateCalls
    (log (worldOf (fire Batched loginConfig idleProps Submit (typed "admin" "s3cret"))))
  = [("admin", "s3cret")].
Proof.
  destruct (authenticate_only_with_credentials Batched loginConfig idleProps Submit
              (typed "admin" "s3cret") "admin" "s3cret" (or_introl eq_refl))
    as (_ & _ & _ & _ & _ & Hu & Hp & Hl).
  exact (conj Hu (conj Hp Hl)).
Defined.

(** X3: what the handlers never do.  The location is set exactly by a
    submit under the OpenShift strategy, to the configured endpoint; no
    handler of an event calls [checkCredentials]; a change of an input
    makes no call at all; and every submit first prevents the default
    action of the event, whatever the strategy. *)
Theorem navigation_only_on_openshift_submit (m : UpdateMode)
    (cfg : AuthenticationConfig) (props : LoginProps) (ev : Event) (st : LoginState) :
  (forall href, In (Navigate href) (log (worldOf (fire m cfg props ev st))) <->
     ev = Submit /\ strategy cfg = openshift /\ href = authorizationEndpoint cfg) /\
  checkCredentialsCalls (log (worldOf (fire m cfg props ev st))) = 0 /\
  (ev <> Submit -> log (worldOf (fire m cfg props ev st)) = []) /\
  (ev = Submit ->
   hd_error (log (worldOf (fire m cfg props ev st))) = Some PreventDefault).
Proof.
  destruct ev.
  1, 2: rewrite change_log by discriminate;
    (split; [intro href; split; [intros [] | intros (H & _); discriminate H]|]);
    (split; [reflexivity|]);
    (split; [intros _; reflexivity | intro H; discriminate H]).
  rewrite submit_log. split; [|split; [|split]].
  - intro href. split.
    + intro H. destruct (strategy cfg); cbn [AuthStrategy_eqb] in H.
      * destruct (_ && _) in H; simpl in H;
          repeat (destruct H as [H | H]; try discriminate H); destruct H.
      * simpl in H. destruct H as [H | [H | []]]; [discriminate H|].
        injection H as <-. now repeat split.
    + intros (_ & Hs & ->). rewrite Hs. simpl. right. now left.
  - destruct (AuthStrategy_eqb (strategy cfg) openshift); [reflexivity|].
    destruct (_ && _); reflexivity.
  - intro H. now destruct H.
  - intros _. reflexivity.
Qed.

(** ** Runs of events *)

(** X4: editing validates nothing.  Through any run of input changes,
    from any state, no call is made and the five validation fields keep
    their values: a validation error stays as it is while the user types.
    The inputs end as the last value typed into each, whatever the order of
    the changes. *)
Theorem changes_keep_validation (cfg : AuthenticationConfig)
    (steps : list Interaction) (st : LoginState) :
  changesOnly steps = true ->
  let st' := run cfg steps st in
  runLog cfg steps st = [] /\
  username st' = lastUsername steps (username st) /\
  password st' = lastPassword steps (password st) /\
  isValidUsername st' = isValidUsername st /\
  isValidPassword st' = isValidPassword st /\
  filledInputs st' = filledInputs st /\
  showHelperText st' = showHelperText st /\
  errorInput st' = errorInput st.
Proof.
  revert st. induction steps as [|x rest IH]; intros st H; simpl in *.
  - repeat split.
  - destruct x as [m props ev]; simpl in *. destruct ev; [| |discriminate H].
    + rewrite change_username_state, change_log by discriminate.
      exact (IH _ H).
    + rewrite change_password_state, change_log by discriminate.
      exact (IH _ H).
Qed.

Lemma changes_keep_validation_witness :
  username (run loginConfig typingOnly (submit Batched loginConfig idleProps constructor))
  = "admin"
  /\ showHelperText
       (run loginConfig typingOnly (submit Batched loginConfig idleProps constructor))
     = true
  /\ isValidUsername
       (run loginConfig typingOnly (submit Batched loginConfig idleProps constructor))
     = false.
Proof.
  destruct (changes_keep_validation loginConfig typingOnly
              (submit Batched loginConfig idleProps constructor) eq_refl)
    as (_ & Hu & _ & Hv & _ & _ & Hs & _).
  exact (conj Hu (conj Hs Hv)).
Defined.

(** X5: a submit under the credential form forgets the validation
    history.  Two states with the same username and password give the same
    state after a submit, whatever their flags and messages were and however
    [setState] is run. *)
Theorem submit_forgets_history (m1 m2 : UpdateMode) (cfg : AuthenticationConfig)
    (props : LoginProps) (st1 st2 : LoginState) :
  strategy cfg = login ->
  username st1 = username st2 ->
  password st1 = password st2 ->
  submit m1 cfg props st1 = submit m2 cfg props st2.
Proof.
  intros Hs Hu Hp. unfold submit.
  rewrite !(submit_login_state _ cfg _ _ Hs), Hu, Hp. reflexivity.
Qed.

Lemma submit_forgets_history_witness :
  submit Batched loginConfig idleProps
    (run loginConfig typingOnly (submit Batched loginConfig idleProps constructor))
  = submit Immediate loginConfig idleProps (typed "admin" "s3cret").
Proof.
  exact (submit_forgets_history Batched Immediate loginConfig idleProps
           (run loginConfig typingOnly (submit Batched loginConfig idleProps constructor))
           (typed "admin" "s3cret") eq_refl eq_refl eq_refl).
Defined.

(** X6: the calls to [authenticate] of a whole run are, in order, the
    username and password of each submit that found the credential form,
    both inputs filled and the prop supplied; no other event adds one. *)
Theorem run_authenticate_calls (cfg : AuthenticationConfig)
    (steps : list Interaction) (st : LoginState) :
  authenticateCalls (runLog cfg steps st) = authenticatedSubmits cfg steps st.
Proof.
  revert st. induction steps as [|x rest IH]; intro st; simpl; [reflexivity|].
  rewrite authenticateCalls_app, IH. f_equal.
  destruct (event x).
  - rewrite change_log by discriminate. reflexivity.
  - rewrite change_log by discriminate. reflexivity.
  - rewrite submit_log. cbn [authenticateCalls].
    destruct (strategy cfg); cbn [AuthStrategy_eqb andb authenticateCalls];
      [|reflexivity].
    destruct (truthy (username st) && truthy (password st)
              && callable (authenticate (given x))); reflexivity.
Qed.

(** X7: under the OpenShift strategy the form state never moves.  In a
    session made of events the rendered page offers, the state stays the
    one of the constructor and [authenticate] is never called. *)
Theorem openshift_session_is_constant (cfg : AuthenticationConfig)
    (doc : Document) (steps : list Interaction) :
  strategy cfg = openshift ->
  offered cfg steps (mount Batched doc constructor) = true ->
  session cfg doc steps = constructor /\
  authenticateCalls (runLog cfg steps (mount Batched doc constructor)) = [].
Proof.
  intros Hs. unfold session. rewrite mount_state.
  generalize constructor as st.
  induction steps as [|x rest IH]; intros st Hoff; simpl in *; [now split|].
  apply andb_true_iff in Hoff as [Hx Hrest].
  destruct (offers_change_needs_form _ _ _ _ Hx) as [Hev | Hl]; [|congruence].
  rewrite Hev in *. rewrite (submit_openshift_state _ cfg _ _ Hs) in *.
  destruct (IH st Hrest) as [Hrun Hlog]. split; [exact Hrun|].
  rewrite authenticateCalls_app, Hlog, submit_log.
  rewrite (proj2 (AuthStrategy_eqb_eq _ _) Hs). reflexivity.
Qed.

Lemma openshift_session_is_constant_witness :
  session openshiftConfig loginPageDocument clickTwice = constructor.
Proof.
  exact (proj1 (openshift_session_is_constant openshiftConfig loginPageDocument
                  clickTwice eq_refl eq_refl)).
Defined.

(** The validity flags go together with the helper flag through every
    event. *)
Lemma after_keeps_flags_together (m : UpdateMode) (cfg : AuthenticationConfig)
    (props : LoginProps) (ev : Event) (st : LoginState) :
  isValidUsername st = negb (showHelperText st) /\
  isValidPassword st = negb (showHelperText st) ->
  isValidUsername (after m cfg props ev st) = negb (showHelperText (after m cfg props ev st)) /\
  isValidPassword (after m cfg props ev st) = negb (showHelperText (after m cfg props ev st)).
Proof.
  intro H. destruct ev.
  - rewrite change_username_state. exact H.
  - rewrite change_password_state. exact H.
  - destruct (strategy cfg) eqn:Hs.
    + rewrite (submit_login_state _ cfg _ _ Hs).
      destruct (truthy (username st) && truthy (password st)
                && callable (authenticate props)); split; reflexivity.
    + rewrite (submit_openshift_state _ cfg _ _ Hs). exact H.
Qed.

Lemma session_flags_together (cfg : AuthenticationConfig) (doc : Document)
    (steps : list Interaction) :
  isValidUsername (session cfg doc steps)
  = negb (showHelperText (session cfg doc steps)) /\
  isValidPassword (session cfg doc steps)
  = negb (showHelperText (session cfg doc steps)).
Proof.
  unfold session. rewrite mount_state.
  assert (H0 : isValidUsername constructor = negb (showHelperText constructor) /\
               isValidPassword constructor = negb (showHelperText constructor))
    by (split; reflexivity).
  revert H0. generalize constructor as st.
  induction steps as [|x rest IH]; intros st H0; simpl; [exact H0|].
  apply IH. now apply after_keeps_flags_together.
Qed.

(** X8: the two inputs are never judged apart.  In every state a session
    reaches, whatever the events, [isValidUsername] and [isValidPassword]
    are equal, and both are the negation of [showHelperText]: the values
    computed per input at the start of [handleSubmit] are always replaced by
    the branch taken, so a single empty input marks both inputs invalid. *)
Theorem validity_flags_go_together (cfg : AuthenticationConfig) (doc : Document)
    (steps : list Interaction) :
  isValidUsername (session cfg doc steps) = isValidPassword (session cfg doc steps) /\
  isValidUsername (session cfg doc steps) = negb (showHelperText (session cfg doc steps)).
Proof.
  destruct (session_flags_together cfg doc steps) as [Hu Hp].
  split; [now rewrite Hu, Hp | exact Hu].
Qed.

(** ** Mount *)

(** [document.getElementById] finds an id exactly when the document has
    it. *)
Lemma getElementById_spec (doc : Document) (id : string) :
  (In id doc -> getElementById doc id = Some id) /\
  (~ In id doc -> getElementById doc id = None).
Proof.
  unfold getElementById.
  destruct (existsb (String.eqb id) doc) eqn:He; split; intro H; try reflexivity.
  - apply existsb_exists in He as (x & Hin & Hx).
    apply String.eqb_eq in Hx. subst x. now destruct H.
  - assert (Ht : existsb (String.eqb id) doc = true).
    { apply existsb_exists. exists id. split; [exact H | apply String.eqb_refl]. }
    rewrite Ht in He. discriminate He.
Qed.

(** X9: [componentDidMount] focuses the username input exactly when the
    document has an element with the id [pf-login-username-id], after the
    credentials check; without that element the check is the only call. *)
Theorem mount_focuses_username_when_present (m : UpdateMode) (doc : Document)
    (st : LoginState) :
  (In "pf-login-username-id" doc ->
   log (worldOf (componentDidMount doc (enter m st)))
   = [CheckCredentials; Focus "pf-login-username-id"]) /\
  (~ In "pf-login-username-id" doc ->
   log (worldOf (componentDidMount doc (enter m st))) = [CheckCredentials]).
Proof.
  destruct (getElementById_spec doc "pf-login-username-id") as [Hin Hout].
  split; intro H; unfold componentDidMount;
    [rewrite (Hin H) | rewrite (Hout H)]; reflexivity.
Qed.

(** ** Rendering of the messages *)

Lemma not_danger_eqb (t : string) : t <> "danger" -> String.eqb t "danger" = false.
Proof. intro H. now apply String.eqb_neq. Qed.

(** X10: the looks of a message.  [renderMessage] gives the empty string
    exactly for a missing or empty message.  Otherwise it gives one of two
    spans, keyed by the message: the danger look (red, circle icon) or the
    warning look (yellow, triangle icon), colour and icon always agreeing.
    A given type decides alone: [danger] gives the danger look and any
    other non-empty type the warning look; without a type (or with an empty
    one) the look is danger exactly when the status is [error] or
    [filledInputs] is set. *)
Theorem renderMessage_looks (props : LoginProps) (st : LoginState)
    (message : option string) (type : option string) :
  (renderMessage props st message type = Text "" <-> truthyOpt message = false) /\
  (forall text, message = Some text -> truthy text = true ->
     (renderMessage props st message type = dangerSpan text \/
      renderMessage props st message type = warningSpan text) /\
     (type = Some "danger" ->
      renderMessage props st message type = dangerSpan text) /\
     (forall t, type = Some t -> truthy t = true -> t <> "danger" ->
      renderMessage props st message type = warningSpan text) /\
     (truthyOpt type = false ->
      renderMessage props st message type
      = if LoginStatus_eqb (status props) error || filledInputs st
        then dangerSpan text else warningSpan text)).
Proof.
  split.
  - destruct message as [text|]; simpl; [|now split].
    destruct (truthy text) eqn:Ht; simpl; [|now split].
    split; intro H; [|discriminate H].
    destruct type as [t|]; [destruct (truthy t)|];
      repeat match goal with
             | H : context [if ?b then _ else _] |- _ => destruct b
             end; discriminate H.
  - intros text -> Ht. unfold renderMessage. rewrite Ht. cbn [negb].
    unfold dangerSpan, warningSpan. repeat split.
    + destruct type as [t|]; [destruct (truthy t)|];
        repeat match goal with
               | |- context [if ?b then _ else _] => destruct b
               end; auto.
    + intros ->. reflexivity.
    + intros t -> Htt Hnd. rewrite Htt, (not_danger_eqb t Hnd). reflexivity.
    + intro Hty. destruct type as [t|]; simpl in Hty; [rewrite Hty|];
        destruct (LoginStatus_eqb (status props) error || filledInputs st);
        reflexivity.
Qed.

(** When the helper flag is set, the validation message heads the
    list. *)
Lemma getHelperMessage_head (cfg : AuthenticationConfig) (props : LoginProps)
    (st : LoginState) :
  showHelperText st = true ->
  hd_error (getHelperMessage cfg props st)
  = Some (renderMessage props st (errorInput st) None).
Proof.
  intro H. unfold getHelperMessage, push. rewrite H.
  destruct (secretMissing cfg), (LoginStatus_eqb (status props) expired),
    (LoginStatus_eqb (status props) error),
    (truthyOpt (postLoginErrorMsg props)); reflexivity.
Qed.

(** X11: how a rejected submit is shown.  After a submit under the
    credential form that takes the rejecting branch, the first message of
    the list is the validation message, non-empty, in the warning look when
    an input was empty and the status is not [error], and in the danger
    look when the status is [error] or both inputs were filled (the
    [authenticate] prop being undefined). *)
Theorem rejected_submit_message_look (m : UpdateMode) (cfg : AuthenticationConfig)
    (props0 props : LoginProps) (st : LoginState) :
  strategy cfg = login ->
  truthy (username st) && truthy (password st) && callable (authenticate props0) = false ->
  exists msg,
    errorInput (submit m cfg props0 st) = Some msg /\
    truthy msg = true /\
    hd_error (getHelperMessage cfg props (submit m cfg props0 st))
    = Some (if LoginStatus_eqb (status props) error
               || (truthy (username st) && truthy (password st))
            then dangerSpan msg else warningSpan msg).
Proof.
  intros Hs Hr. unfold submit.
  rewrite (submit_login_state _ cfg _ _ Hs), Hr.
  eexists. split; [reflexivity|]. split.
  - destruct (truthy (username st)), (truthy (password st)); reflexivity.
  - rewrite getHelperMessage_head by reflexivity. f_equal.
    unfold renderMessage. cbn [errorInput filledInputs].
    destruct (truthy (username st)), (truthy (password st)),
      (LoginStatus_eqb (status props) error); reflexivity.
Qed.

Lemma rejected_submit_message_look_witness :
  hd_error (getHelperMessage loginConfig expiredProps
              (submit Batched loginConfig idleProps (typed "admin" "")))
  = Some (warningSpan ("无效的登录凭证。" ++ "密码是必填项。")%string).
Proof.
  destruct (rejected_submit_message_look Batched loginConfig idleProps expiredProps
              (typed "admin" "") eq_refl eq_refl) as (msg & He & _ & Hh).
  injection He as <-. exact Hh.
Defined.

(** X12: the list never holds all five messages.  It has at most four,
    four only for the validation message, the missing secret, the expired
    session and the post-login error together (the status message needs the
    status [error] and no missing secret, so it never joins the secret or
    the expiry warning); and it is empty exactly when none of the five
    conditions holds. *)
Theorem helper_messages_at_most_four (cfg : AuthenticationConfig)
    (props : LoginProps) (st : LoginState) :
  List.length (getHelperMessage cfg props st) <= 4 /\
  (List.length (getHelperMessage cfg props st) = 4 ->
   showHelperText st = true /\ secretMissing cfg = true /\
   status props = expired /\ truthyOpt (postLoginErrorMsg props) = true) /\
  (getHelperMessage cfg props st = [] <->
   showHelperText st = false /\ secretMissing cfg = false /\
   status props <> expired /\ status props <> error /\
   truthyOpt (postLoginErrorMsg props) = false).
Proof.
  unfold getHelperMessage, push.
  destruct (showHelperText st), (secretMissing cfg), (status props) as [| | | |n],
    (truthyOpt (postLoginErrorMsg props));
    cbn [LoginStatus_eqb negb andb app List.length];
    (split; [lia|]);
    (split; [intro H; try discriminate H; now repeat split|]);
    (split; [intro H; try discriminate H; repeat split; try reflexivity; discriminate
            | intros (H1 & H2 & H3 & H4 & H5);
              try discriminate; try reflexivity;
              try (now destruct H3); try (now destruct H4)]).
Qed.

(** ** What the form is given *)

(** The form [render] builds under the credential form. *)
Lemma render_form (cfg : AuthenticationConfig) (props : LoginProps) (st : LoginState)
    (form : LoginFormProps) :
  render cfg props st = FormView form ->
  strategy cfg = login /\
  form_showHelperText form
  = showHelperText st || notEmptyLiteral (message props)
    || Nat.ltb 0 (List.length (getHelperMessage cfg props st)) /\
  form_isValidUsername form
  = isValidUsername st && negb (LoginStatus_eqb (status props) error) /\
  form_isValidPassword form
  = isValidPassword st && negb (LoginStatus_eqb (status props) error) /\
  form_loginButtonLabel form
  = (if isPostLoginPerforming props || LoginStatus_eqb (status props) logging
     then Some "正在登录..." else None) /\
  form_isLoginButtonDisabled form
  = (isPostLoginPerforming props || LoginStatus_eqb (status props) logging)
    || truthyOpt (postLoginErrorMsg props).
Proof.
  unfold render. destruct (strategy cfg); cbn [AuthStrategy_eqb]; intro H;
    [|discriminate H].
  injection H as <-. repeat split.
Qed.

(** X13: when the form hides its helper text.  The form is told to hide
    the helper text only when the state flag is off, the message prop is
    exactly the empty string and the message list is empty; a message prop
    left undefined, or one that is not displayed because the status is not
    [error], keeps the helper text on with nothing in it. *)
Theorem form_helper_text_hidden (cfg : AuthenticationConfig) (props : LoginProps)
    (st : LoginState) (form : LoginFormProps) :
  render cfg props st = FormView form ->
  (form_showHelperText form = false <->
   showHelperText st = false /\ message props = Some "" /\
   getHelperMessage cfg props st = []) /\
  (message props = None -> form_showHelperText form = true).
Proof.
  intro Hr. destruct (render_form _ _ _ _ Hr) as (_ & Hf & _). rewrite Hf.
  split; [split|].
  - intro H. apply orb_false_iff in H as [H Hl].
    apply orb_false_iff in H as [Hs Hm]. repeat split.
    + exact Hs.
    + destruct (message props) as [[|c s]|]; simpl in Hm;
        [reflexivity | discriminate Hm | discriminate Hm].
    + destruct (getHelperMessage cfg props st); [reflexivity | discriminate Hl].
  - intros (Hs & Hm & Hl). rewrite Hs, Hm, Hl. reflexivity.
  - intros ->. cbn [notEmptyLiteral]. now rewrite orb_true_r.
Qed.

Lemma form_helper_text_hidden_witness :
  showHelperText constructor = false /\ message idleProps = Some "" /\
  getHelperMessage loginConfig idleProps constructor = [].
Proof.
  exact (proj1 (proj1 (form_helper_text_hidden loginConfig idleProps constructor
                         _ eq_refl)) eq_refl).
Defined.

(** X14: the login button.  The form gets the in-progress label exactly
    while a login is under way (the post-login step is performing or the
    status is [logging]); whenever it has that label the button is
    disabled; and the button is enabled exactly when no login is under way
    and there is no post-login error. *)
Theorem login_button_disabled_while_logging_in (cfg : AuthenticationConfig)
    (props : LoginProps) (st : LoginState) (form : LoginFormProps) :
  render cfg props st = FormView form ->
  (form_loginButtonLabel form = Some "正在登录..." <->
   isPostLoginPerforming props = true \/ status props = logging) /\
  (form_loginButtonLabel form <> None -> form_isLoginButtonDisabled form = true) /\
  (form_isLoginButtonDisabled form = false <->
   isPostLoginPerforming props = false /\ status props <> logging /\
   truthyOpt (postLoginErrorMsg props) = false).
Proof.
  intro Hr. destruct (render_form _ _ _ _ Hr) as (_ & _ & _ & _ & Hl & Hd).
  rewrite Hl, Hd.
  assert (Hlog : LoginStatus_eqb (status props) logging = true <-> status props = logging)
    by apply LoginStatus_eqb_eq.
  destruct (isPostLoginPerforming props), (LoginStatus_eqb (status props) logging),
    (truthyOpt (postLoginErrorMsg props)); cbn [orb];
    (split; [split; [intro H; try discriminate H; auto; right; now apply Hlog
                    | intros [H | H]; try reflexivity; try discriminate H;
                      apply Hlog in H; discriminate H]|]);
    (split; [intro H; try reflexivity; now destruct H|]);
    (split; [intro H; try discriminate H; repeat split;
               intro Hc; apply Hlog in Hc; discriminate Hc
            | intros (H1 & H2 & H3); try discriminate; try reflexivity;
              destruct H2; now apply Hlog]).
Qed.

Lemma login_button_disabled_while_logging_in_witness :
  isPostLoginPerforming idleProps = false /\ status idleProps <> logging /\
  truthyOpt (postLoginErrorMsg idleProps) = false.
Proof.
  exact (proj1 (proj2 (proj2 (login_button_disabled_while_logging_in loginConfig
                                idleProps constructor _ eq_refl))) eq_refl).
Defined.

(** X15: the inputs as the form shows them.  In every state a session
    reaches, the form marks the username and the password alike, and marks
    them valid exactly when no validation error is up and the status is not
    [error]. *)
Theorem form_marks_inputs_alike (cfg : AuthenticationConfig) (doc : Document)
    (steps : list Interaction) (props : LoginProps) (form : LoginFormProps) :
  render cfg props (session cfg doc steps) = FormView form ->
  form_isValidUsername form = form_isValidPassword form /\
  (form_isValidUsername form = true <->
   showHelperText (session cfg doc steps) = false /\ status props <> error).
Proof.
  intro Hr. destruct (render_form _ _ _ _ Hr) as (_ & _ & Hu & Hp & _).
  destruct (session_flags_together cfg doc steps) as [Eu Ep].
  rewrite Hu, Hp, Eu, Ep. split; [reflexivity|].
  assert (He : LoginStatus_eqb (status props) error = true <-> status props = error)
    by apply LoginStatus_eqb_eq.
  destruct (showHelperText (session cfg doc steps)),
    (LoginStatus_eqb (status props) error); cbn [negb andb]; split;
    try (intro H; discriminate H);
    try (intros (H1 & H2); try discriminate H1; destruct H2; now apply He).
  - intros _. split; [reflexivity|]. intro Hc. apply He in Hc. discriminate Hc.
  - intros _. reflexivity.
Qed.

Lemma form_marks_inputs_alike_witness :
  showHelperText (session loginConfig loginPageDocument (typeAndSubmit "admin" "s3cret"))
  = false /\ status idleProps <> error.
Proof.
  exact (proj1 (proj2 (form_marks_inputs_alike loginConfig loginPageDocument
                         (typeAndSubmit "admin" "s3cret") idleProps _ eq_refl))
           eq_refl).
Defined.

(** ** The connected container *)

(** X16: the page behind [connect].  With the props of the container,
    a submit under the credential form dispatches the [authenticate] thunk,
    once and with the username and password of the state, exactly when both
    inputs are non-empty, and otherwise dispatches nothing: the branch for
    an undefined [authenticate] prop cannot be taken, so the helper flag
    ends set exactly when an input was empty.  Mounting dispatches the
    [checkCredentials] thunk once. *)
Theorem container_submit_dispatches (R : Type) (dispatch : KialiAppAction -> R)
    (m : UpdateMode) (cfg : AuthenticationConfig) (own : OwnProps)
    (state : KialiAppState) (doc : Document) (st : LoginState) :
  strategy cfg = login ->
  dispatched (mapDispatchToProps dispatch)
    (log (worldOf (fire m cfg (containerProps own state) Submit st)))
  = (if truthy (username st) && truthy (password st)
     then [dispatch (authenticateThunk (username st) (password st))]
     else []) /\
  showHelperText (submit m cfg (containerProps own state) st)
  = negb (truthy (username st) && truthy (password st)) /\
  dispatched (mapDispatchToProps dispatch)
    (log (worldOf (componentDidMount doc (enter m st))))
  = [dispatch checkCredentialsThunk].
Proof.
  intro Hs. split; [|split].
  - rewrite submit_log, Hs. cbn [AuthStrategy_eqb containerProps authenticate callable].
    rewrite andb_true_r.
    destruct (truthy (username st) && truthy (password st)); reflexivity.
  - unfold submit. rewrite (submit_login_state _ cfg _ _ Hs).
    cbn [containerProps authenticate callable]. rewrite andb_true_r.
    destruct (truthy (username st) && truthy (password st)); reflexivity.
  - unfold componentDidMount.
    destruct (getElementById doc "pf-login-username-id"); reflexivity.
Qed.

Lemma container_submit_dispatches_witness :
  dispatched (mapDispatchToProps (fun a => a))
    (log (worldOf (fire Batched loginConfig (containerProps bareOwnProps loggingStore)
                     Submit (typed "admin" "s3cret"))))
  = [authenticateThunk "admin" "s3cret"].
Proof.
  exact (proj1 (container_submit_dispatches KialiAppAction (fun a => a) Batched
                  loginConfig bareOwnProps loggingStore loginPageDocument
                  (typed "admin" "s3cret") eq_refl)).
Defined.

(** * MissingSidecar *)

(** X17: the label or the tooltip, never both.  Whatever props are
    written, the element shows the label beside the icon exactly when it
    has no tooltip; with [tooltip] set it is wrapped in an overlay showing
    [textTooltip] and the label is dropped.  A prop left out takes its
    default, a prop written is used as it is, and the props the component
    does not name reach the outer span unchanged. *)
Theorem missingSidecar_label_or_tooltip (icons : IconConfig) (p : MissingSidecarProps) :
  (labelOf (MissingSidecar_element icons p) = None <->
   tooltipOf (MissingSidecar_element icons p) <> None) /\
  (ms_tooltip p = Some true ->
   tooltipOf (MissingSidecar_element icons p)
   = Some (orDefault (ms_textTooltip p) "丢失Sidecar") /\
   labelOf (MissingSidecar_element icons p) = None) /\
  (ms_tooltip p <> Some true ->
   labelOf (MissingSidecar_element icons p)
   = Some (orDefault (ms_text p) "丢失Sidecar") /\
   tooltipOf (MissingSidecar_element icons p) = None) /\
  span_icon (spanOf (MissingSidecar_element icons p))
  = {| el_type := orDefault (ms_type p) (icon_type icons);
       el_name := orDefault (ms_name p) (icon_name icons);
       el_color := orDefault (ms_color p) (icon_color icons) |} /\
  span_otherProps (spanOf (MissingSidecar_element icons p)) = ms_otherProps p /\
  span_style (spanOf (MissingSidecar_element icons p)) = ms_style p.
Proof.
  destruct p as [sty txt ttt ty nm col [[|]|] other];
    unfold MissingSidecar_element, MissingSidecar, resolveDefaults, labelOf, tooltipOf;
    cbn; repeat split; intros; try reflexivity; try discriminate;
    try congruence; exfalso; congruence.
Qed.

(** * OverviewCardLinks *)

Lemma append_empty_r (s : string) : (s ++ "")%string = s.
Proof.
  induction s as [|c s IH]; simpl; [reflexivity | now rewrite IH].
Qed.

Lemma append_assoc_string (a b c : string) :
  ((a ++ b) ++ c)%string = (a ++ (b ++ c))%string.
Proof.
  induction a as [|x a IH]; simpl; [reflexivity | now rewrite IH].
Qed.

Lemma append_cancel_l (a b c : string) : (a ++ b)%string = (a ++ c)%string -> b = c.
Proof.
  induction a as [|x a IH]; simpl; intro H; [exact H|].
  injection H as H. now apply IH.
Qed.

(** The namespace goes into the links as it is.  The card has five
    links, in the order graph, applications, workloads, services, Istio
    configuration; the target of each is the target for the empty name
    followed by the name itself, unescaped, and the keys of the five
    triggers are distinct. *)
Lemma overview_links_append_name (Paths : PathsConfig) (name : string) :
  map link_to (OverviewCardLinks_render Paths name)
  = map (fun l => (link_to l ++ name)%string) (OverviewCardLinks_render Paths "") /\
  map link_to (OverviewCardLinks_render Paths "")
  = [ "/graph/namespaces?namespaces=";
      ("/" ++ APPLICATIONS Paths ++ "?namespaces=")%string;
      ("/" ++ WORKLOADS Paths ++ "?namespaces=")%string;
      ("/" ++ SERVICES Paths ++ "?namespaces=")%string;
      ("/" ++ ISTIO Paths ++ "?namespaces=")%string ] /\
  NoDup (map trigger_key (OverviewCardLinks_render Paths name)).
Proof.
  split; [|split].
  - unfold OverviewCardLinks_render. cbn [map link_to].
    rewrite !append_empty_r. reflexivity.
  - unfold OverviewCardLinks_render. cbn [map link_to].
    rewrite !append_empty_r. reflexivity.
  - unfold OverviewCardLinks_render. cbn [map trigger_key].
    repeat constructor; simpl; intuition discriminate.
Qed.

(** X18: links of different namespaces differ.  If the links at the same
    place of the cards of two namespaces have the same target, the two
    namespaces are the same, whatever the configured paths. *)
Theorem overview_links_tell_namespaces_apart (Paths : PathsConfig)
    (n1 n2 : string) (i : nat) (l1 l2 : CardLink) :
  nth_error (OverviewCardLinks_render Paths n1) i = Some l1 ->
  nth_error (OverviewCardLinks_render Paths n2) i = Some l2 ->
  link_to l1 = link_to l2 ->
  n1 = n2.
Proof.
  intros H1 H2 He. unfold OverviewCardLinks_render in H1, H2.
  do 5 (destruct i as [|i];
        [apply (f_equal (fun o => match o with Some l => link_to l | None => "" end))
           in H1, H2;
         cbn [nth_error link_to] in H1, H2;
         rewrite <- H1, <- H2 in He; now apply append_cancel_l in He|]).
  destruct i; discriminate H1.
Qed.

Lemma overview_links_tell_namespaces_apart_witness :
  "bookinfo" = "bookinfo".
Proof.
  exact (overview_links_tell_namespaces_apart kialiPaths "bookinfo" "bookinfo" 1
           _ _ eq_refl eq_refl eq_refl).
Defined.
